(** * Footer: the page footer of the scorer interface

    A shallow embedding of [interface/components/Footer.tsx]:
    the asset selection [getAssets], the memoised hook call, and the
    JSX tree the component returns, followed by the properties of the
    rendered markup. *)

From Stdlib Require Import Ascii.
From stdpp Require Import base option list strings gmap.

Set Warnings "-register-all".

(** ** JavaScript values

    Every value the component touches is a string or [undefined]; it is
    represented by [option string], [None] standing for [undefined]. *)
Module JS.

Abbreviation value := (option string) (only parsing).

(** Abstract operation [ToString], as applied to each substitution of a
    template literal. *)
Definition ToString (v : value) : string :=
  match v with
  | Some s => s
  | None => "undefined"
  end.

(** Strict equality [v === s] against a string literal. *)
Definition strict_eq (v : value) (s : string) : bool :=
  bool_decide (v = Some s).

(** [Object.is] on a dependency array, element by element. *)
Definition deps_same (d1 d2 : list value) : bool :=
  bool_decide (d1 = d2).

End JS.

(** ** Markup trees

    A JSX expression evaluates to a tree of elements; an element carries
    its props in source order and its children. *)
Module Jsx.

Inductive markup : Type :=
| Text (s : string)
| Elem (tag : string) (props : list (string * string)) (children : list markup).

Definition children_of (t : markup) : list markup :=
  match t with
  | Text _ => []
  | Elem _ _ cs => cs
  end.

Fixpoint assoc (name : string) (ps : list (string * string)) : option string :=
  match ps with
  | [] => None
  | (k, v) :: ps' => if bool_decide (k = name) then Some v else assoc name ps'
  end.

(** The value of prop [name] of an element. *)
Definition prop (name : string) (t : markup) : option string :=
  match t with
  | Text _ => None
  | Elem _ ps _ => assoc name ps
  end.

(** The node reached by following child indices from the root. *)
Fixpoint node_at (p : list nat) (t : markup) : option markup :=
  match p with
  | [] => Some t
  | i :: p' =>
      match children_of t !! i with
      | Some c => node_at p' c
      | None => None
      end
  end.

Definition prop_at (p : list nat) (name : string) (t : markup) : option string :=
  match node_at p t with
  | Some n => prop name n
  | None => None
  end.

(** All elements with tag [g], in document order. *)
Fixpoint elements_by_tag (g : string) (t : markup) : list markup :=
  match t with
  | Text _ => []
  | Elem g' ps cs =>
      (if bool_decide (g' = g) then [t] else [])
      ++ (fix go (l : list markup) : list markup :=
            match l with
            | [] => []
            | c :: l' => elements_by_tag g c ++ go l'
            end) cs
  end.

(** An icon-only link: an anchor whose single child is an image. *)
Definition icon_only (t : markup) : option string :=
  match t with
  | Elem "a" _ [Elem "img" ps []] => assoc "src" ps
  | _ => None
  end.

(** *** Positions at which two trees differ *)

Inductive slot : Type :=
| SShape                (* different node kind, tag, prop names or arity *)
| SText                 (* different text content *)
| SAttr (name : string) (* different value of the named prop *).

Global Instance slot_eq_dec : EqDecision slot.
Proof. solve_decision. Defined.

Fixpoint diff_props (p : list nat) (ps qs : list (string * string))
  : list (list nat * slot) :=
  match ps, qs with
  | [], [] => []
  | (k1, v1) :: ps', (k2, v2) :: qs' =>
      if bool_decide (k1 = k2)
      then (if bool_decide (v1 = v2) then [] else [(p, SAttr k1)])
             ++ diff_props p ps' qs'
      else [(p, SShape)]
  | _, _ => [(p, SShape)]
  end.

Fixpoint diff (p : list nat) (t u : markup) : list (list nat * slot) :=
  match t, u with
  | Text a, Text b => if bool_decide (a = b) then [] else [(p, SText)]
  | Elem g ps cs, Elem h qs ds =>
      if bool_decide (g = h)
      then diff_props p ps qs
             ++ (fix go (i : nat) (l : list markup) (m : list markup)
                   : list (list nat * slot) :=
                   match l, m with
                   | [], [] => []
                   | c :: l', d :: m' => diff (p ++ [i]) c d ++ go (S i) l' m'
                   | _, _ => [(p, SShape)]
                   end) 0 cs ds
      else [(p, SShape)]
  | _, _ => [(p, SShape)]
  end.

(** *** Class lists

    The class list of an element is its class string split on ASCII
    whitespace (TAB, LF, FF, CR, SPACE). *)
Definition is_ascii_whitespace (c : ascii) : bool :=
  match c with
  | "009" | "010" | "012" | "013" | " " => true
  | _ => false
  end%char.

Fixpoint split_ws (cur : string) (s : string) : list string :=
  match s with
  | EmptyString => if bool_decide (cur = "") then [] else [cur]
  | String c r =>
      if is_ascii_whitespace c
      then (if bool_decide (cur = "") then [] else [cur]) ++ split_ws "" r
      else split_ws (cur +:+ String c "") r
  end.

Definition classList (t : markup) : list string :=
  match prop "className" t with
  | Some s => split_ws "" s
  | None => []
  end.

(** The part of a URL after its last slash. *)
Fixpoint last_segment_go (cur : string) (s : string) : string :=
  match s with
  | EmptyString => cur
  | String c r =>
      if bool_decide (c = "/"%char)
      then last_segment_go "" r
      else last_segment_go (cur +:+ String c "") r
  end.

Definition last_segment (url : string) : string := last_segment_go "" url.

(** [suf] is a suffix of [s]. *)
Definition ends_with (s suf : string) : Prop := ∃ pre, s = pre +:+ suf.

(** A class name: not empty, no ASCII whitespace inside. *)
Fixpoint has_ws (s : string) : bool :=
  match s with
  | EmptyString => false
  | String c r => is_ascii_whitespace c || has_ws r
  end.

Definition is_token (s : string) : bool :=
  negb (bool_decide (s = "")) && negb (has_ws s).

(** [diff] on the children of two elements, from index [i] on. *)
Fixpoint diff_children (p : list nat) (i : nat) (l m : list markup)
  : list (list nat * slot) :=
  match l, m with
  | [], [] => []
  | c :: l', d :: m' => diff (p ++ [i]) c d ++ diff_children p (S i) l' m'
  | _, _ => [(p, SShape)]
  end.

(** Overwrite the value of the first prop called [name]. *)
Fixpoint set_assoc (name v : string) (ps : list (string * string))
  : list (string * string) :=
  match ps with
  | [] => []
  | (k, x) :: ps' =>
      if bool_decide (k = name) then (k, v) :: ps'
      else (k, x) :: set_assoc name v ps'
  end.

(** Overwrite the value of prop [name] at the node under path [p]. *)
Fixpoint set_prop_at (p : list nat) (name v : string) (t : markup) : markup :=
  match t with
  | Text _ => t
  | Elem g ps cs =>
      match p with
      | [] => Elem g (set_assoc name v ps) cs
      | i :: p' => Elem g ps (alter (set_prop_at p' name v) i cs)
      end
  end.

End Jsx.

(** ** React's [useMemo]

    The hook keeps one cell per call site: the dependency array of the
    last computation and its result.  It calls the factory on the first
    render and whenever the dependencies changed, and hands back the
    stored result otherwise. *)
Module React.

Definition memo_cell (V : Type) : Type := option (list JS.value * V).

Definition useMemo {V : Type} (cell : memo_cell V)
    (factory : unit → V) (deps : list JS.value) : V * memo_cell V :=
  match cell with
  | Some (deps0, v) =>
      if JS.deps_same deps0 deps then (v, cell)
      else let v' := factory () in (v', Some (deps, v'))
  | None => let v' := factory () in (v', Some (deps, v'))
  end.

End React.

Import Jsx.

(** ** The component *)

Record Assets := mkAssets {
  emphasisColor : string;
  docsIcon : string;
  githubLogo : string;
}.

Global Instance Assets_eq_dec : EqDecision Assets.
Proof. solve_decision. Defined.

Definition getAssets (mode : JS.value) : Assets :=
  let darkMode := JS.strict_eq mode "dark" in
  {| emphasisColor := if darkMode then "white" else "black";
     docsIcon := if darkMode
                 then "/assets/docsIconLight.svg"
                 else "/assets/docsIconDark.svg";
     githubLogo := if darkMode
                   then "/assets/githubLogoLight.svg"
                   else "/assets/githubLogoDark.svg" |}.

Record FooterProps := mkProps {
  mode : JS.value;
  className : JS.value;
}.

(** The name under which the commit hash is read from [process.env]. *)
Definition NEXT_PUBLIC_GIT_COMMIT_HASH : string := "NEXT_PUBLIC_GIT_COMMIT_HASH".

Section Footer.

(** The padding token exported by the sibling [PageLayout] module; its
    value is not part of this component. *)
Variable PAGE_PADDING : string.

(** [const assets = useMemo(() => getAssets(mode), [mode])] *)
Definition Footer_assets (hooks : React.memo_cell Assets) (mode : JS.value)
  : Assets * React.memo_cell Assets :=
  React.useMemo hooks (λ _, getAssets mode) [mode].

(** The component function: the hook state before the render, the
    props and [process.env] go in; the markup and the hook state after
    the render come out. *)
Definition Footer (hooks : React.memo_cell Assets) (props : FooterProps)
    (env : gmap string string) : markup * React.memo_cell Assets :=
  let '(assets, hooks') := Footer_assets hooks (mode props) in
  (Elem "div"
     [("className",
        "flex h-[120px] items-center justify-between text-base "
          +:+ PAGE_PADDING +:+ " " +:+ JS.ToString (className props))]
     [ Elem "div" [("className", "text-purple-softpurple")]
         [ Text "Available on";
           Elem "a"
             [("href", "https://ceramic.network/");
              ("target", "_blank");
              ("rel", "noopener noreferrer");
              ("className",
                "text-" +:+ emphasisColor assets +:+ " ml-1 hover:underline")]
             [ Elem "span" [("className", "text-purple-darkpurple")]
                 [ Text "Ceramic." ] ] ];
       Elem "div" [("className", "flex")]
         [ Elem "a"
             [("href",
                "https://github.com/gitcoinco/passport-scorer/commit/"
                  +:+ JS.ToString (env !! NEXT_PUBLIC_GIT_COMMIT_HASH));
              ("target", "_blank");
              ("rel", "noopener noreferrer");
              ("className", "mr-8 text-purple-darkpurple")]
             [ Text "Git commit" ];
           Elem "a"
             [("href", "https://github.com/gitcoinco/passport");
              ("target", "_blank");
              ("rel", "noopener noreferrer");
              ("className", "mr-8")]
             [ Elem "img"
                 [("src", githubLogo assets); ("alt", "Github Logo")] [] ];
           Elem "a"
             [("href",
                "https://docs.passport.gitcoin.co/building-with-passport/quick-start-guide");
              ("target", "_blank");
              ("rel", "noopener noreferrer");
              ("className", "")]
             [ Elem "img"
                 [("src", docsIcon assets); ("alt", "Docs Icon")] [] ] ] ],
   hooks').

(** The markup of one render. *)
Definition render (hooks : React.memo_cell Assets) (mode className : JS.value)
    (env : gmap string string) : markup :=
  (Footer hooks {| mode := mode; className := className |} env).1.

(** The hook cell holds what [getAssets] gives for its dependencies. *)
Definition cell_ok (hooks : React.memo_cell Assets) : bool :=
  match hooks with
  | None => true
  | Some ([m], a) => bool_decide (a = getAssets m)
  | Some _ => false
  end.

(** Hook states that occur: the empty cell of the mount, and the cell
    left behind by any render. *)
Inductive reachable : React.memo_cell Assets → Prop :=
| reach_mount : reachable None
| reach_render hooks props env :
    reachable hooks → reachable (Footer hooks props env).2.

End Footer.

(** The address the commit link starts with. *)
Definition commit_base : string :=
  "https://github.com/gitcoinco/passport-scorer/commit/".

(** The three places of the markup that depend on the mode. *)
Definition mode_slots : list (list nat * slot) :=
  [([0; 1], SAttr "className"); ([1; 1; 0], SAttr "src"); ([1; 2; 0], SAttr "src")].

(** ** Repeated renders

    The host calls the component once per render and hands it the hook
    state the previous render left behind. *)
Fixpoint render_all (PAGE_PADDING : string) (hooks : React.memo_cell Assets)
    (inputs : list (FooterProps * gmap string string))
  : list markup * React.memo_cell Assets :=
  match inputs with
  | [] => ([], hooks)
  | i :: rest =>
      let '(t, hooks') := Footer PAGE_PADDING hooks i.1 i.2 in
      let '(ts, hooks'') := render_all PAGE_PADDING hooks' rest in
      (t :: ts, hooks'')
  end.

(** The classes the root element always carries. *)
Definition base_classes : list string :=
  ["flex"; "h-[120px]"; "items-center"; "justify-between"; "text-base"].

(** The prop values of the markup that are not constants of the source. *)
Definition layout_slots : list (list nat * slot) :=
  [([], SAttr "className"); ([0; 1], SAttr "className");
   ([1; 0], SAttr "href"); ([1; 1; 0], SAttr "src"); ([1; 2; 0], SAttr "src")].

(** [pre] is a prefix of [s]. *)
Definition starts_with (s pre : string) : Prop := ∃ suf, s = pre +:+ suf.

(** ** Strings *)

Lemma app_cons_l (c : ascii) (r s : string) :
  String c r +:+ s = String c (r +:+ s).
Proof. reflexivity. Qed.

Lemma app_empty_r (s : string) : s +:+ "" = s.
Proof. induction s as [|c r IH]; [done|]. by rewrite app_cons_l, IH. Qed.

Lemma app_assoc_str (s1 s2 s3 : string) :
  (s1 +:+ s2) +:+ s3 = s1 +:+ (s2 +:+ s3).
Proof.
  induction s1 as [|c r IH]; [done|]. by rewrite !app_cons_l, IH.
Qed.

Lemma ends_with_app (pre s : string) : ends_with (pre +:+ s) s.
Proof. by exists pre. Qed.

Lemma split_ws_token (w cur : string) :
  has_ws w = false → cur +:+ w ≠ "" → split_ws cur w = [cur +:+ w].
Proof.
  revert cur. induction w as [|c r IH]; intros cur Hws Hne.
  - rewrite app_empty_r in *. cbn [split_ws]. by rewrite bool_decide_eq_false_2.
  - cbn [has_ws] in Hws. apply orb_false_iff in Hws as [Hc Hr].
    cbn [split_ws]. rewrite Hc.
    rewrite IH; [|done|]; rewrite app_assoc_str, app_cons_l; done.
Qed.

Lemma split_ws_last (pre w cur : string) :
  is_token w = true → w ∈ split_ws cur (pre +:+ " " +:+ w).
Proof.
  intros [Hne Hws]%andb_true_iff.
  apply negb_true_iff, bool_decide_eq_false in Hne.
  apply negb_true_iff in Hws.
  revert cur. induction pre as [|c r IH]; intros cur.
  - change ("" +:+ " " +:+ w) with (String " " w).
    cbn [split_ws is_ascii_whitespace].
    rewrite (split_ws_token w "") by done.
    apply elem_of_app; right. by apply list_elem_of_singleton.
  - rewrite app_cons_l. cbn [split_ws].
    destruct (is_ascii_whitespace c); [|by apply IH].
    apply elem_of_app; right. by apply IH.
Qed.

(** ** Markup trees: the difference of equal trees is empty *)

Lemma markup_nested_ind (P : markup → Prop) :
  (∀ s, P (Text s)) →
  (∀ g ps cs, Forall P cs → P (Elem g ps cs)) →
  ∀ t, P t.
Proof.
  intros P_text P_elem. fix IH 1. intros [s|g ps cs].
  - apply P_text.
  - apply P_elem. induction cs as [|c cs IHcs]; constructor.
    + apply IH.
    + apply IHcs.
Qed.

Lemma diff_Elem p g ps cs h qs ds :
  diff p (Elem g ps cs) (Elem h qs ds) =
  if bool_decide (g = h)
  then diff_props p ps qs ++ diff_children p 0 cs ds
  else [(p, SShape)].
Proof.
  cbn [diff]. case_bool_decide; [|done]. f_equal.
  generalize 0. revert ds.
  induction cs as [|c cs IH]; intros [|d ds] i; cbn; try done.
  by rewrite IH.
Qed.

Lemma diff_props_nil p ps qs : diff_props p ps qs = [] → ps = qs.
Proof.
  revert qs. induction ps as [|[k1 v1] ps IH]; intros [|[k2 v2] qs]; cbn; try done.
  repeat case_bool_decide; cbn; try done.
  intros ?%IH. by subst.
Qed.

Lemma diff_nil t : ∀ p u, diff p t u = [] → t = u.
Proof.
  induction t as [s|g ps cs IH] using markup_nested_ind; intros p [s'|h qs ds].
  - cbn. case_bool_decide; by subst.
  - done.
  - done.
  - rewrite diff_Elem. case_bool_decide as Hg; [|done]. subst h.
    intros [Hps Hcs]%app_eq_nil. apply diff_props_nil in Hps as ->.
    f_equal. revert Hcs. generalize 0. revert ds.
    induction IH as [|c cs Hc _ IHcs]; intros [|d ds] i; cbn; try done.
    intros [Hd Hds]%app_eq_nil. f_equal; [by eapply Hc | by eapply IHcs].
Qed.

(** ** The memoised asset bundle *)

Lemma Footer_assets_ok hooks m :
  cell_ok hooks = true →
  Footer_assets hooks m = (getAssets m, Some ([m], getAssets m)).
Proof.
  unfold Footer_assets, React.useMemo, JS.deps_same.
  destruct hooks as [[[|m0 [|? ?]] a]|]; cbn; try done.
  intros ->%bool_decide_eq_true.
  case_bool_decide; by simplify_eq.
Qed.

Lemma Footer_cell_ok PP hooks props env :
  cell_ok hooks = true → cell_ok (Footer PP hooks props env).2 = true.
Proof.
  intros Hok. unfold Footer. rewrite Footer_assets_ok by done.
  cbn. by apply bool_decide_eq_true.
Qed.

Lemma reachable_cell_ok PP hooks : reachable PP hooks → cell_ok hooks = true.
Proof.
  induction 1 as [|hooks props env _ IH]; [done|]. by apply Footer_cell_ok.
Qed.

Lemma getAssets_dark :
  getAssets (Some "dark") =
  mkAssets "white" "/assets/docsIconLight.svg" "/assets/githubLogoLight.svg".
Proof. reflexivity. Qed.

Lemma getAssets_not_dark m :
  m ≠ Some "dark" →
  getAssets m =
  mkAssets "black" "/assets/docsIconDark.svg" "/assets/githubLogoDark.svg".
Proof.
  intros Hm. unfold getAssets, JS.strict_eq. by rewrite bool_decide_eq_false_2.
Qed.

(** Unfold one render in a hook state that satisfies [cell_ok]. *)
Ltac footer_render :=
  unfold render, Footer; cbn [mode className];
  rewrite ?Footer_assets_ok by assumption;
  cbn [fst snd].

(** Unfold one render in an arbitrary hook state. *)
Ltac footer_render_any hooks m :=
  unfold render, Footer; cbn [mode className];
  destruct (Footer_assets hooks m) as [? ?];
  cbn [fst snd].

(** ** Properties of the rendered footer *)

(** C1: every mode other than "dark" ([undefined], "light", any other
    string), with any className, renders the light variant: emphasis
    colour black on the left link, and the dark-on-light logo and docs
    icon as image sources. *)
Theorem render_light_variant PP hooks m cls env :
  cell_ok hooks = true →
  m ≠ Some "dark" →
  let t := render PP hooks m cls env in
  emphasisColor (getAssets m) = "black"
  ∧ githubLogo (getAssets m) = "/assets/githubLogoDark.svg"
  ∧ docsIcon (getAssets m) = "/assets/docsIconDark.svg"
  ∧ prop_at [0; 1] "className" t = Some "text-black ml-1 hover:underline"
  ∧ prop_at [1; 1; 0] "src" t = Some "/assets/githubLogoDark.svg"
  ∧ prop_at [1; 2; 0] "src" t = Some "/assets/docsIconDark.svg".
Proof.
  intros Hok Hm t. subst t. footer_render.
  rewrite (getAssets_not_dark m Hm). by repeat split.
Qed.

Lemma render_light_variant_witness :
  let t := render "px-4" None None None ∅ in
  emphasisColor (getAssets None) = "black"
  ∧ githubLogo (getAssets None) = "/assets/githubLogoDark.svg"
  ∧ docsIcon (getAssets None) = "/assets/docsIconDark.svg"
  ∧ prop_at [0; 1] "className" t = Some "text-black ml-1 hover:underline"
  ∧ prop_at [1; 1; 0] "src" t = Some "/assets/githubLogoDark.svg"
  ∧ prop_at [1; 2; 0] "src" t = Some "/assets/docsIconDark.svg".
Proof.
  apply (render_light_variant "px-4" None None None ∅); [reflexivity | discriminate].
Defined.

(** C2: mode "dark" renders the dark variant: emphasis colour white and
    the light-on-dark logo and docs icon. *)
Theorem render_dark_variant PP hooks cls env :
  cell_ok hooks = true →
  let t := render PP hooks (Some "dark") cls env in
  getAssets (Some "dark") =
    mkAssets "white" "/assets/docsIconLight.svg" "/assets/githubLogoLight.svg"
  ∧ prop_at [0; 1] "className" t = Some "text-white ml-1 hover:underline"
  ∧ prop_at [1; 1; 0] "src" t = Some "/assets/githubLogoLight.svg"
  ∧ prop_at [1; 2; 0] "src" t = Some "/assets/docsIconLight.svg".
Proof.
  intros Hok t. subst t. footer_render. by repeat split.
Qed.

Lemma render_dark_variant_witness :
  let hooks := Some ([Some "light"], getAssets (Some "light")) in
  let t := render "px-4" hooks (Some "dark") (Some "mt-2") ∅ in
  getAssets (Some "dark") =
    mkAssets "white" "/assets/docsIconLight.svg" "/assets/githubLogoLight.svg"
  ∧ prop_at [0; 1] "className" t = Some "text-white ml-1 hover:underline"
  ∧ prop_at [1; 1; 0] "src" t = Some "/assets/githubLogoLight.svg"
  ∧ prop_at [1; 2; 0] "src" t = Some "/assets/docsIconLight.svg".
Proof.
  apply (render_dark_variant "px-4"
           (Some ([Some "light"], getAssets (Some "light")))
           (Some "mt-2") ∅).
  reflexivity.
Defined.

(** C3: [render("dark", "extra-class")]: the class list of the root
    contains "extra-class", the emphasis colour is white, and the logo
    and docs icon are the light-on-dark files. *)
Theorem render_dark_extra_class PP hooks env :
  cell_ok hooks = true →
  let t := render PP hooks (Some "dark") (Some "extra-class") env in
  "extra-class" ∈ classList t
  ∧ prop_at [0; 1] "className" t = Some "text-white ml-1 hover:underline"
  ∧ "text-white" ∈ default [] (classList <$> node_at [0; 1] t)
  ∧ prop_at [1; 1; 0] "src" t = Some "/assets/githubLogoLight.svg"
  ∧ prop_at [1; 2; 0] "src" t = Some "/assets/docsIconLight.svg".
Proof.
  intros Hok t. subst t. footer_render. split; [|repeat split].
  - unfold classList. cbn [prop assoc JS.ToString]. 
    rewrite bool_decide_eq_true_2 by done.
    rewrite <- app_assoc_str. by apply split_ws_last.
  - vm_compute. set_solver.
Qed.

Lemma render_dark_extra_class_witness :
  let t := render "px-4 md:px-10" None (Some "dark") (Some "extra-class") ∅ in
  "extra-class" ∈ classList t
  ∧ prop_at [0; 1] "className" t = Some "text-white ml-1 hover:underline"
  ∧ "text-white" ∈ default [] (classList <$> node_at [0; 1] t)
  ∧ prop_at [1; 1; 0] "src" t = Some "/assets/githubLogoLight.svg"
  ∧ prop_at [1; 2; 0] "src" t = Some "/assets/docsIconLight.svg".
Proof.
  apply (render_dark_extra_class "px-4 md:px-10" None ∅). reflexivity.
Defined.

(** C4, as stated, fails when the commit hash is not configured: the
    link then ends in the segment "undefined", not in an empty one. *)
Lemma commit_url_unset_not_empty_segment :
  ¬ ∃ url,
      prop_at [1; 0] "href" (render "px-4" None None None ∅) = Some url
      ∧ last_segment url = "".
Proof. intros (url & Hurl & Hseg). vm_compute in Hurl. by simplify_eq. Qed.

(** C4, amended: the commit link is the fixed address followed by the
    configured hash, so it ends with that string and an empty hash leaves
    an empty last segment; without a configured hash the link ends in
    the segment "undefined".  Every case yields a link. *)
Theorem commit_url_ends_with_hash PP hooks m cls env :
  ∃ url,
    prop_at [1; 0] "href" (render PP hooks m cls env) = Some url
    ∧ match env !! NEXT_PUBLIC_GIT_COMMIT_HASH with
      | Some "" =>
          url = commit_base ∧ ends_with url "" ∧ last_segment url = ""
      | Some hash =>
          url = commit_base +:+ hash
          ∧ ends_with url hash
          ∧ last_segment url = last_segment hash
      | None =>
          url = commit_base +:+ "undefined"
          ∧ last_segment url = "undefined"
      end.
Proof.
  footer_render_any hooks m. eexists. split; [reflexivity|].
  destruct (env !! NEXT_PUBLIC_GIT_COMMIT_HASH) as [[|c hash]|];
    cbn [JS.ToString].
  - repeat split. by exists commit_base.
  - repeat split. apply ends_with_app.
  - done.
Qed.

(** C5: a className that is passed appears unchanged in the class string
    of the root, after the fixed classes and the padding token. *)
Theorem root_class_has_className PP hooks m (cls : string) env :
  ∃ cs,
    prop "className" (render PP hooks m (Some cls) env) = Some cs
    ∧ cs = "flex h-[120px] items-center justify-between text-base "
             +:+ PP +:+ " " +:+ cls
    ∧ ends_with cs cls.
Proof.
  footer_render_any hooks m. cbn [prop assoc JS.ToString].
  rewrite bool_decide_eq_true_2 by done.
  eexists. split; [reflexivity|]. split; [reflexivity|].
  rewrite <- !app_assoc_str. apply ends_with_app.
Qed.

(** C10: without a className the class string of the root ends in the
    word "undefined", after the fixed classes and the padding token. *)
Theorem root_class_undefined PP hooks m env :
  prop "className" (render PP hooks m None env) =
    Some ("flex h-[120px] items-center justify-between text-base "
            +:+ PP +:+ " " +:+ "undefined")
  ∧ "undefined" ∈ classList (render PP hooks m None env).
Proof.
  footer_render_any hooks m. unfold classList. cbn [prop assoc JS.ToString].
  rewrite bool_decide_eq_true_2 by done. split; [done|].
  rewrite <- app_assoc_str. by apply split_ws_last.
Qed.

(** C6: the component returns for every hook state, mode, className and
    environment: a [div] with the left and the right region, and the
    next hook state. *)
Theorem Footer_total PP hooks m cls env :
  ∃ ps left_ls right_ls hooks',
    Footer PP hooks (mkProps m cls) env =
      (Elem "div" ps
         [Elem "div" [("className", "text-purple-softpurple")] left_ls;
          Elem "div" [("className", "flex")] right_ls], hooks')
    ∧ length left_ls = 2 ∧ length right_ls = 3.
Proof.
  unfold Footer. cbn [mode className].
  destruct (Footer_assets hooks m) as [a hooks'].
  by repeat eexists.
Qed.

(** C7: the asset bundle is a function of the mode alone.  Two calls of
    [getAssets] with the same mode give the same record, two renders
    with the same mode use the same record whatever the hook cell held
    before, and a second render with an unchanged mode hands back the
    stored record and leaves the cell as it is. *)
Theorem assets_deterministic h1 h2 m1 m2 :
  cell_ok h1 = true → cell_ok h2 = true → m1 = m2 →
  getAssets m1 = getAssets m2
  ∧ (Footer_assets h1 m1).1 = (Footer_assets h2 m2).1
  ∧ Footer_assets (Footer_assets h1 m1).2 m2 =
      ((Footer_assets h1 m1).1, (Footer_assets h1 m1).2).
Proof.
  intros Hok1 Hok2 <-. rewrite !Footer_assets_ok by done. cbn [fst snd].
  rewrite Footer_assets_ok; [done|]. by apply bool_decide_eq_true.
Qed.

Lemma assets_deterministic_witness :
  let h1 : React.memo_cell Assets := None in
  let h2 := Some ([Some "dark"], getAssets (Some "dark")) in
  getAssets (Some "dark") = getAssets (Some "dark")
  ∧ (Footer_assets h1 (Some "dark")).1 = (Footer_assets h2 (Some "dark")).1
  ∧ Footer_assets (Footer_assets h1 (Some "dark")).2 (Some "dark") =
      ((Footer_assets h1 (Some "dark")).1, (Footer_assets h1 (Some "dark")).2).
Proof.
  apply (assets_deterministic None
           (Some ([Some "dark"], getAssets (Some "dark")))
           (Some "dark") (Some "dark")); reflexivity.
Defined.

(** C8: the right region holds, in this order, the commit link (its
    address built from the configured hash), the repository link whose
    only child is the logo image, and the documentation link whose only
    child is the docs icon; these three and the link of the left region
    are all the links there are, and each opens in a new browsing
    context with [noopener noreferrer]. *)
Theorem right_region_links PP hooks m cls env :
  cell_ok hooks = true →
  let t := render PP hooks m cls env in
  ∃ left commit gh docs,
    node_at [0; 1] t = Some left
    ∧ children_of <$> node_at [1] t = Some [commit; gh; docs]
    ∧ prop "href" commit =
        Some (commit_base +:+ JS.ToString (env !! NEXT_PUBLIC_GIT_COMMIT_HASH))
    ∧ children_of commit = [Text "Git commit"]
    ∧ prop "href" gh = Some "https://github.com/gitcoinco/passport"
    ∧ icon_only gh = Some (githubLogo (getAssets m))
    ∧ prop "href" docs =
        Some "https://docs.passport.gitcoin.co/building-with-passport/quick-start-guide"
    ∧ icon_only docs = Some (docsIcon (getAssets m))
    ∧ elements_by_tag "a" t = [left; commit; gh; docs]
    ∧ Forall (λ a, prop "target" a = Some "_blank"
                   ∧ prop "rel" a = Some "noopener noreferrer")
        [left; commit; gh; docs].
Proof.
  intros Hok t. subst t. footer_render.
  do 4 eexists. repeat split; try reflexivity.
  repeat constructor.
Qed.

Lemma right_region_links_witness :
  let env : gmap string string := {[ NEXT_PUBLIC_GIT_COMMIT_HASH := "3f2a9c1" ]} in
  let t := render "px-4" None (Some "dark") None env in
  ∃ left commit gh docs,
    node_at [0; 1] t = Some left
    ∧ children_of <$> node_at [1] t = Some [commit; gh; docs]
    ∧ prop "href" commit =
        Some (commit_base +:+ JS.ToString (env !! NEXT_PUBLIC_GIT_COMMIT_HASH))
    ∧ children_of commit = [Text "Git commit"]
    ∧ prop "href" gh = Some "https://github.com/gitcoinco/passport"
    ∧ icon_only gh = Some (githubLogo (getAssets (Some "dark")))
    ∧ prop "href" docs =
        Some "https://docs.passport.gitcoin.co/building-with-passport/quick-start-guide"
    ∧ icon_only docs = Some (docsIcon (getAssets (Some "dark")))
    ∧ elements_by_tag "a" t = [left; commit; gh; docs]
    ∧ Forall (λ a, prop "target" a = Some "_blank"
                   ∧ prop "rel" a = Some "noopener noreferrer")
        [left; commit; gh; docs].
Proof.
  apply (right_region_links "px-4" None (Some "dark") None
           {[ NEXT_PUBLIC_GIT_COMMIT_HASH := "3f2a9c1" ]}).
  reflexivity.
Defined.

Ltac decide_props :=
  repeat first
    [ rewrite bool_decide_eq_true_2 by reflexivity
    | rewrite bool_decide_eq_false_2 by discriminate ].

(** C9: the mode reaches the markup in three places only: the class
    string of the left link (its emphasis-colour class) and the [src] of
    the two images.  With className and environment fixed, two renders
    differ at most there, and the second is the first with these three
    props overwritten. *)
Theorem mode_changes_three_slots PP h1 h2 m1 m2 cls env :
  cell_ok h1 = true → cell_ok h2 = true →
  let t1 := render PP h1 m1 cls env in
  let t2 := render PP h2 m2 cls env in
  diff [] t1 t2 ⊆ mode_slots
  ∧ t2 = set_prop_at [0; 1] "className"
           ("text-" +:+ emphasisColor (getAssets m2) +:+ " ml-1 hover:underline")
           (set_prop_at [1; 1; 0] "src" (githubLogo (getAssets m2))
              (set_prop_at [1; 2; 0] "src" (docsIcon (getAssets m2)) t1))
  ∧ drop 1 (default [] (classList <$> node_at [0; 1] t1)) =
      drop 1 (default [] (classList <$> node_at [0; 1] t2)).
Proof.
  intros Hok1 Hok2 t1 t2. subst t1 t2. footer_render.
  split; [|split].
  - unfold getAssets.
    set (rc := _ +:+ PP +:+ _). set (ch := _ +:+ JS.ToString _).
    clearbody rc ch.
    destruct (JS.strict_eq m1 "dark"), (JS.strict_eq m2 "dark");
      cbn [emphasisColor docsIcon githubLogo];
      rewrite !diff_Elem; decide_props;
      cbn [diff_props diff_children app diff];
      rewrite ?diff_Elem; decide_props;
      cbn [diff_props diff_children app diff];
      rewrite ?diff_Elem; decide_props;
      cbn [diff_props diff_children app diff];
      unfold mode_slots; set_solver.
  - reflexivity.
  - unfold getAssets.
    by destruct (JS.strict_eq m1 "dark"), (JS.strict_eq m2 "dark").
Qed.

Lemma mode_changes_three_slots_witness :
  let env : gmap string string := {[ NEXT_PUBLIC_GIT_COMMIT_HASH := "3f2a9c1" ]} in
  let h2 := Some ([Some "dark"], getAssets (Some "dark")) in
  let t1 := render "px-4" None (Some "dark") (Some "mt-2") env in
  let t2 := render "px-4" h2 (Some "light") (Some "mt-2") env in
  diff [] t1 t2 ⊆ mode_slots
  ∧ t2 = set_prop_at [0; 1] "className"
           ("text-" +:+ emphasisColor (getAssets (Some "light"))
              +:+ " ml-1 hover:underline")
           (set_prop_at [1; 1; 0] "src" (githubLogo (getAssets (Some "light")))
              (set_prop_at [1; 2; 0] "src" (docsIcon (getAssets (Some "light"))) t1))
  ∧ drop 1 (default [] (classList <$> node_at [0; 1] t1)) =
      drop 1 (default [] (classList <$> node_at [0; 1] t2)).
Proof.
  apply (mode_changes_three_slots "px-4" None
           (Some ([Some "dark"], getAssets (Some "dark")))
           (Some "dark") (Some "light") (Some "mt-2")
           {[ NEXT_PUBLIC_GIT_COMMIT_HASH := "3f2a9c1" ]}); reflexivity.
Defined.

(** ** Further properties of [getAssets] and [Footer] *)

Lemma split_ws_join (a b cur : string) :
  split_ws cur (a +:+ " " +:+ b) = split_ws cur a ++ split_ws "" b.
Proof.
  revert cur. induction a as [|c r IH]; intros cur.
  - reflexivity.
  - rewrite app_cons_l. cbn [split_ws].
    destruct (is_ascii_whitespace c); [|by apply IH].
    by rewrite IH, (assoc_L (++)).
Qed.

Lemma diff_props_refl p ps : diff_props p ps ps = [].
Proof.
  induction ps as [|[k v] ps IH]; [done|]. cbn [diff_props].
  by rewrite !bool_decide_eq_true_2.
Qed.

Lemma diff_refl t : ∀ p, diff p t t = [].
Proof.
  induction t as [s|g ps cs IH] using markup_nested_ind; intros p.
  - cbn. by rewrite bool_decide_eq_true_2.
  - rewrite diff_Elem, bool_decide_eq_true_2, diff_props_refl by done.
    cbn [app]. generalize 0.
    induction IH as [|c cs Hc _ IHcs]; intros i; cbn [diff_children]; [done|].
    by rewrite Hc, IHcs.
Qed.

Lemma diff_children_refl p i cs : diff_children p i cs cs = [].
Proof.
  revert i. induction cs as [|c cs IH]; intros i; cbn [diff_children]; [done|].
  by rewrite diff_refl, IH.
Qed.

(** A render in a consistent hook state gives the markup of a first
    render and leaves the cell keyed by the mode just rendered. *)
Lemma Footer_ok_eq PP hooks props env :
  cell_ok hooks = true →
  Footer PP hooks props env =
    ((Footer PP None props env).1,
     Some ([mode props], getAssets (mode props))).
Proof.
  intros Hok. unfold Footer. by rewrite Footer_assets_ok.
Qed.

(** X1: the bundle tells dark from every other mode and nothing more:
    two modes get the same bundle exactly when both or neither is
    "dark", and each single field already fixes the whole bundle, so no
    bundle mixes values of the two variants. *)
Theorem getAssets_eq_iff m1 m2 :
  (getAssets m1 = getAssets m2 ↔ (m1 = Some "dark" ↔ m2 = Some "dark"))
  ∧ (emphasisColor (getAssets m1) = emphasisColor (getAssets m2)
       ↔ getAssets m1 = getAssets m2)
  ∧ (docsIcon (getAssets m1) = docsIcon (getAssets m2)
       ↔ getAssets m1 = getAssets m2)
  ∧ (githubLogo (getAssets m1) = githubLogo (getAssets m2)
       ↔ getAssets m1 = getAssets m2).
Proof.
  unfold getAssets, JS.strict_eq.
  do 2 case_bool_decide; cbn; repeat split; intros; try done; tauto.
Qed.


(** X3: memoisation cannot be seen in the output: in every consistent
    hook state a render gives the markup of a first render with the same
    props and environment, and leaves the cell holding the bundle of the
    mode just rendered. *)
Theorem Footer_memo_transparent PP hooks props env :
  cell_ok hooks = true →
  Footer PP hooks props env =
    ((Footer PP None props env).1,
     Some ([mode props], getAssets (mode props))).
Proof. apply Footer_ok_eq. Qed.

Lemma Footer_memo_transparent_witness :
  Footer "px-4" (Some ([Some "dark"], getAssets (Some "dark")))
    (mkProps (Some "light") (Some "mt-2")) ∅ =
    ((Footer "px-4" None (mkProps (Some "light") (Some "mt-2")) ∅).1,
     Some ([Some "light"], getAssets (Some "light"))).
Proof.
  apply (Footer_memo_transparent "px-4"
           (Some ([Some "dark"], getAssets (Some "dark")))
           (mkProps (Some "light") (Some "mt-2")) ∅).
  reflexivity.
Defined.

Lemma render_all_ok PP inputs :
  ∀ hooks, cell_ok hooks = true →
    (render_all PP hooks inputs).1 = (λ i, (Footer PP None i.1 i.2).1) <$> inputs
    ∧ (render_all PP hooks inputs).2 =
        match last inputs with
        | Some i => Some ([mode i.1], getAssets (mode i.1))
        | None => hooks
        end.
Proof.
  induction inputs as [|i rest IH]; intros hooks Hok; [done|].
  cbn [render_all]. rewrite Footer_ok_eq by done.
  destruct (IH (Some ([mode i.1], getAssets (mode i.1)))) as [Hts Hcell].
  { cbn. by apply bool_decide_eq_true. }
  destruct (render_all PP _ rest) as [ts hooks'']. cbn [fst snd] in *.
  subst ts hooks''. split; [done|].
  destruct rest as [|j rest']; [done|].
  change (last (i :: j :: rest')) with (last (j :: rest')).
  destruct (last (j :: rest')) eqn:Hlast; [done|].
  by apply last_None in Hlast.
Qed.

(** X4: a sequence of renders from the mount on shows no history: the
    markup of each render is that of a first render with the same
    inputs, whatever was rendered before, and the hook cell at the end
    holds the bundle of the last mode (it is empty when nothing was
    rendered). *)
Theorem render_all_history_free PP inputs :
  (render_all PP None inputs).1 = (λ i, (Footer PP None i.1 i.2).1) <$> inputs
  ∧ (render_all PP None inputs).2 =
      match last inputs with
      | Some i => Some ([mode i.1], getAssets (mode i.1))
      | None => None
      end.
Proof. by apply render_all_ok. Qed.

(** X5: the class list of the root is the five fixed classes, then the
    classes of the padding token, then the classes of the className, in
    this order; an empty className adds none, a className of several
    words adds each word, and an omitted one adds the class
    "undefined". *)
Theorem root_classList PP hooks m cls env :
  classList (render PP hooks m cls env) =
    base_classes ++ split_ws "" PP ++ split_ws "" (JS.ToString cls)
  ∧ split_ws "" (JS.ToString (Some "")) = []
  ∧ split_ws "" (JS.ToString (Some "mt-2 mb-4")) = ["mt-2"; "mb-4"]
  ∧ split_ws "" (JS.ToString None) = ["undefined"].
Proof.
  split; [|done].
  footer_render_any hooks m. unfold classList. cbn [prop assoc].
  rewrite bool_decide_eq_true_2 by done.
  rewrite <- (split_ws_join PP (JS.ToString cls) "").
  reflexivity.
Qed.

(** Decide the comparisons of [diff]: equal and distinct constants by
    computation, the others by cases. *)
Ltac decide_slots :=
  repeat first
    [ rewrite bool_decide_eq_true_2 by reflexivity
    | rewrite bool_decide_eq_false_2 by discriminate
    | match goal with
      | |- context [bool_decide (?x = ?y)] =>
          is_var x; is_var y;
          let b := fresh "b" in
          generalize (bool_decide (x = y)); intros b
      end ].

(** Containment of one list of slots in another is decided by running it. *)
Ltac slots_included :=
  repeat match goal with b : bool |- _ => destruct b end;
  apply (bool_decide_unpack _); vm_compute; exact I.

(** X6: the className reaches the markup in one place only, the class
    string of the root: with everything else fixed, two renders differ at
    most there, and the second is the first with that one prop
    overwritten. *)
Theorem className_changes_root_class PP hooks m c1 c2 env :
  let t1 := render PP hooks m c1 env in
  let t2 := render PP hooks m c2 env in
  diff [] t1 t2 ⊆ [([], SAttr "className")]
  ∧ t2 = set_prop_at [] "className"
           ("flex h-[120px] items-center justify-between text-base "
              +:+ PP +:+ " " +:+ JS.ToString c2) t1.
Proof.
  intros t1 t2. subst t1 t2. footer_render_any hooks m. split; [|done].
  rewrite diff_Elem, bool_decide_eq_true_2, diff_children_refl by done.
  set (rc1 := _ +:+ PP +:+ _ +:+ JS.ToString c1).
  set (rc2 := _ +:+ PP +:+ _ +:+ JS.ToString c2).
  clearbody rc1 rc2.
  cbn [diff_props]. decide_slots; slots_included.
Qed.

(** X7: of the environment only the commit hash is read: two
    environments that agree on it give the same markup and the same hook
    state, whatever else they hold. *)
Theorem Footer_reads_only_commit_hash PP hooks props env1 env2 :
  env1 !! NEXT_PUBLIC_GIT_COMMIT_HASH = env2 !! NEXT_PUBLIC_GIT_COMMIT_HASH →
  Footer PP hooks props env1 = Footer PP hooks props env2.
Proof. intros Heq. unfold Footer. by rewrite Heq. Qed.

Lemma Footer_reads_only_commit_hash_witness :
  Footer "px-4" None (mkProps (Some "dark") None)
    {[ NEXT_PUBLIC_GIT_COMMIT_HASH := "3f2a9c1"; "NODE_ENV" := "production" ]} =
  Footer "px-4" None (mkProps (Some "dark") None)
    {[ NEXT_PUBLIC_GIT_COMMIT_HASH := "3f2a9c1" ]}.
Proof.
  apply (Footer_reads_only_commit_hash "px-4" None (mkProps (Some "dark") None)
           {[ NEXT_PUBLIC_GIT_COMMIT_HASH := "3f2a9c1"; "NODE_ENV" := "production" ]}
           {[ NEXT_PUBLIC_GIT_COMMIT_HASH := "3f2a9c1" ]}).
  vm_compute. reflexivity.
Defined.

(** X8: the layout is fixed: any two renders, whatever their hook
    states, props, environments and padding tokens, have the same
    elements, prop names, texts, link targets and [alt] texts, and differ
    at most in five prop values: the two class strings that take an
    input, the commit address and the two image sources. *)
Theorem layout_fixed PP1 PP2 h1 h2 p1 p2 env1 env2 :
  diff [] (Footer PP1 h1 p1 env1).1 (Footer PP2 h2 p2 env2).1 ⊆ layout_slots.
Proof.
  unfold Footer.
  destruct (Footer_assets h1 (mode p1)) as [[ec1 di1 gl1] h1'].
  destruct (Footer_assets h2 (mode p2)) as [[ec2 di2 gl2] h2'].
  cbn [fst snd emphasisColor docsIcon githubLogo].
  set (rc1 := _ +:+ PP1 +:+ _). set (rc2 := _ +:+ PP2 +:+ _).
  set (ch1 := _ +:+ JS.ToString (env1 !! _)).
  set (ch2 := _ +:+ JS.ToString (env2 !! _)).
  set (lc1 := _ +:+ ec1 +:+ _). set (lc2 := _ +:+ ec2 +:+ _).
  clearbody rc1 rc2 ch1 ch2 lc1 lc2.
  rewrite !diff_Elem; decide_slots;
    cbn [diff_props diff_children app diff];
    rewrite ?diff_Elem; decide_slots;
    cbn [diff_props diff_children app diff];
    rewrite ?diff_Elem; decide_slots;
    cbn [diff_props diff_children app diff];
    rewrite ?diff_Elem; decide_slots;
    cbn [diff_props diff_children app diff];
    slots_included.
Qed.

(** X9: two renders carry the same commit link exactly when their
    commit hashes read the same as text: different configured hashes
    always give different links, and the only confusion is between a
    missing hash and the hash "undefined". *)
Theorem commit_href_eq_iff PP1 PP2 h1 h2 m1 m2 c1 c2 env1 env2 :
  prop_at [1; 0] "href" (render PP1 h1 m1 c1 env1) =
    prop_at [1; 0] "href" (render PP2 h2 m2 c2 env2)
  ↔ JS.ToString (env1 !! NEXT_PUBLIC_GIT_COMMIT_HASH) =
      JS.ToString (env2 !! NEXT_PUBLIC_GIT_COMMIT_HASH).
Proof.
  unfold render, Footer. cbn [mode className].
  destruct (Footer_assets h1 m1) as [a1 h1'].
  destruct (Footer_assets h2 m2) as [a2 h2'].
  cbn [fst snd].
  change (Some (commit_base +:+ JS.ToString (env1 !! NEXT_PUBLIC_GIT_COMMIT_HASH)) =
          Some (commit_base +:+ JS.ToString (env2 !! NEXT_PUBLIC_GIT_COMMIT_HASH))
          ↔ JS.ToString (env1 !! NEXT_PUBLIC_GIT_COMMIT_HASH) =
            JS.ToString (env2 !! NEXT_PUBLIC_GIT_COMMIT_HASH)).
  split; [|by intros ->].
  intros [= Heq]. exact Heq.
Qed.

(** X10: under one padding token, two renders have the same root class
    string exactly when their classNames read the same as text: the
    className can be recovered from the class string, except that an
    omitted className and the className "undefined" look alike. *)
Theorem root_class_eq_iff PP h1 h2 m1 m2 c1 c2 env1 env2 :
  prop "className" (render PP h1 m1 c1 env1) =
    prop "className" (render PP h2 m2 c2 env2)
  ↔ JS.ToString c1 = JS.ToString c2.
Proof.
  unfold render, Footer. cbn [mode className].
  destruct (Footer_assets h1 m1) as [a1 h1'].
  destruct (Footer_assets h2 m2) as [a2 h2'].
  cbn [fst snd prop assoc]. rewrite !bool_decide_eq_true_2 by done.
  split; [|by intros ->].
  intros [= Heq].
  change (PP +:+ " " +:+ JS.ToString c1 = PP +:+ " " +:+ JS.ToString c2) in Heq.
  apply (inj (String.app PP)) in Heq. by injection Heq.
Qed.

(** X11: whatever the inputs, every link of the footer has an absolute
    https address, and the footer has exactly two images, the logo and
    then the docs icon, each with its source taken from the bundle of
    this render and with a fixed alternative text. *)
Theorem links_and_images_fixed PP hooks m cls env :
  let t := render PP hooks m cls env in
  let assets := (Footer_assets hooks m).1 in
  Forall (λ a, ∃ url, prop "href" a = Some url ∧ starts_with url "https://")
    (elements_by_tag "a" t)
  ∧ prop "src" <$> elements_by_tag "img" t =
      [Some (githubLogo assets); Some (docsIcon assets)]
  ∧ prop "alt" <$> elements_by_tag "img" t =
      [Some "Github Logo"; Some "Docs Icon"].
Proof.
  intros t assets. subst t assets. unfold render, Footer. cbn [mode className].
  destruct (Footer_assets hooks m) as [a h']. cbn [fst snd].
  split; [|by split].
  repeat constructor; (eexists; split; [reflexivity|]); eexists; reflexivity.
Qed.
